(** * ExtSupport.PHP5 API headers: [pack.h] and [php_open_temporary_file.h]

    The two files are C headers.  They are embedded as the text they are,
    line by line; a small C lexer, the conditional-inclusion part of the C
    preprocessor and a reader of function declarations are defined over that
    text, and every statement below is about what these functions compute
    on the two headers. *)

From Stdlib Require Import String Ascii List ZArith Bool Lia.
From stdpp Require Import gmap strings.
Import ListNotations.

Local Open Scope string_scope.
Local Open Scope list_scope.

(** ** The source text *)

(** [Source/ExtSupport/PHP5/API/ext/standard/pack.h], lines 1 to 38. *)
Definition pack_h : list string :=
  [ "//"
  ; "// ExtSupport.PHP5 - substitute for php5ts.dll"
  ; "//"
  ; "// pack.h"
  ; "// - this is slightly modified pack.h, originally PHP 5.3.3 source files"
  ; "//"
  ; ""
  ; ""
  ; "/*"
  ; "   +----------------------------------------------------------------------+"
  ; "   | PHP Version 5                                                        |"
  ; "   +----------------------------------------------------------------------+"
  ; "   | Copyright (c) 1997-2010 The PHP Group                                |"
  ; "   +----------------------------------------------------------------------+"
  ; "   | This source file is subject to version 3.01 of the PHP license,      |"
  ; "   | that is bundled with this package in the file LICENSE, and is        |"
  ; "   | available through the world-wide-web at the following url:           |"
  ; "   | http://www.php.net/license/3_01.txt                                  |"
  ; "   | If you did not receive a copy of the PHP license and are unable to   |"
  ; "   | obtain it through the world-wide-web, please send a note to          |"
  ; "   | license@php.net so we can mail you a copy immediately.               |"
  ; "   +----------------------------------------------------------------------+"
  ; "   | Author: Rasmus Lerdorf <rasmus@lerdorf.on.ca>                        |"
  ; "   +----------------------------------------------------------------------+"
  ; "*/"
  ; ""
  ; "/* $Id: pack.h 293036 2010-01-03 09:23:27Z sebastian $ */"
  ; ""
  ; "#ifndef PACK_H"
  ; "#define PACK_H"
  ; ""
  ; "PHP_MINIT_FUNCTION(pack);"
  ; "PHP_FUNCTION(pack);"
  ; "PHP_FUNCTION(unpack);"
  ; ""
  ; "#endif /* PACK_H */"
  ; ""
  ; ""
  ].

(** [Source/ExtSupport/PHP5/API/main/php_open_temporary_file.h], lines 1 to 40. *)
Definition php_open_temporary_file_h : list string :=
  [ "//"
  ; "// ExtSupport.PHP5 - substitute for php5ts.dll"
  ; "//"
  ; "// php_open_temporary_file.h"
  ; "// - this is slightly modified php_open_temporary_file.h, originally PHP 5.3.3 source files"
  ; "//"
  ; ""
  ; "/*"
  ; "   +----------------------------------------------------------------------+"
  ; "   | PHP Version 5                                                        |"
  ; "   +----------------------------------------------------------------------+"
  ; "   | Copyright (c) 1997-2010 The PHP Group                                |"
  ; "   +----------------------------------------------------------------------+"
  ; "   | This source file is subject to version 3.01 of the PHP license,      |"
  ; "   | that is bundled with this package in the file LICENSE, and is        |"
  ; "   | available through the world-wide-web at the following url:           |"
  ; "   | http://www.php.net/license/3_01.txt                                  |"
  ; "   | If you did not receive a copy of the PHP license and are unable to   |"
  ; "   | obtain it through the world-wide-web, please send a note to          |"
  ; "   | license@php.net so we can mail you a copy immediately.               |"
  ; "   +----------------------------------------------------------------------+"
  ; "   | Author: Zeev Suraski <zeev@zend.com>                                 |"
  ; "   +----------------------------------------------------------------------+"
  ; "*/"
  ; ""
  ; "/* $Id: php_open_temporary_file.h 293036 2010-01-03 09:23:27Z sebastian $ */"
  ; ""
  ; "#ifndef PHP_OPEN_TEMPORARY_FILE_H"
  ; "#define PHP_OPEN_TEMPORARY_FILE_H"
  ; ""
  ; "BEGIN_EXTERN_C()"
  ; "PHPAPI FILE *php_open_temporary_file(const char *dir, const char *pfx, char **opened_path_p TSRMLS_DC);"
  ; "PHPAPI int php_open_temporary_fd_ex(const char *dir, const char *pfx, char **opened_path_p, zend_bool open_basedir_check TSRMLS_DC);"
  ; "PHPAPI int php_open_temporary_fd(const char *dir, const char *pfx, char **opened_path_p TSRMLS_DC);"
  ; "PHPAPI const char *php_get_temporary_directory(void);"
  ; "PHPAPI void php_shutdown_temporary_directory(void);"
  ; "END_EXTERN_C()"
  ; ""
  ; "#endif /* PHP_OPEN_TEMPORARY_FILE_H */"
  ; ""
  ].

(** The excerpt: both headers, with the names they are included under. *)
Definition excerpt : list (string * list string) :=
  [ ("pack.h", pack_h); ("php_open_temporary_file.h", php_open_temporary_file_h) ].

(** ** Lexer *)

Module Lexer.

(** A preprocessing token: a word (identifier, keyword or number) or one
    punctuation character. *)
Inductive token : Type :=
| TWord (w : string)
| TSym (c : ascii).

Definition token_eqb (a b : token) : bool :=
  match a, b with
  | TWord x, TWord y => String.eqb x y
  | TSym x, TSym y => Ascii.eqb x y
  | _, _ => false
  end.

Definition is_word (t : token) : bool :=
  match t with TWord _ => true | TSym _ => false end.

Definition is_sym (c : ascii) (t : token) : bool :=
  match t with TSym d => Ascii.eqb c d | TWord _ => false end.

Definition is_kw (w : string) (t : token) : bool :=
  match t with TWord v => String.eqb w v | TSym _ => false end.

Definition between (lo hi n : nat) : bool := (lo <=? n)%nat && (n <=? hi)%nat.

(** Letters, digits and the underscore make up words. *)
Definition is_word_char (c : ascii) : bool :=
  let n := nat_of_ascii c in
  between 65 90 n || between 97 122 n || between 48 57 n || (n =? 95)%nat.

(** Space, tab, form feed, vertical tab, carriage return, line feed. *)
Definition is_space (c : ascii) : bool :=
  let n := nat_of_ascii c in
  (n =? 32)%nat || between 9 13 n.

(** Translation phase 3, comments: a block comment becomes one space and
    may run over the end of the line (the flag says whether the line
    starts, and ends, inside one); a line comment ends the line. *)
Fixpoint strip_comments (in_comment : bool) (cs : list ascii)
  : list ascii * bool :=
  match cs with
  | [] => ([], in_comment)
  | c :: tl =>
      if in_comment then
        match tl with
        | d :: tl' =>
            if Ascii.eqb c "*" && Ascii.eqb d "/"
            then let (r, b) := strip_comments false tl' in (" "%char :: r, b)
            else strip_comments true tl
        | [] => ([], true)
        end
      else
        match tl with
        | d :: tl' =>
            if Ascii.eqb c "/" && Ascii.eqb d "/" then ([], false)
            else if Ascii.eqb c "/" && Ascii.eqb d "*"
                 then strip_comments true tl'
                 else let (r, b) := strip_comments false tl in (c :: r, b)
        | [] => ([c], false)
        end
  end.

Definition flush (pending : list ascii) : list token :=
  match pending with
  | [] => []
  | _ :: _ => [TWord (string_of_list_ascii (rev pending))]
  end.

(** Words are maximal runs of word characters; every other character that
    is not white space is a token by itself.  [pending] holds the
    characters of the word being read, last one first. *)
Fixpoint tokens_of (pending : list ascii) (cs : list ascii) : list token :=
  match cs with
  | [] => flush pending
  | c :: tl =>
      if is_word_char c then tokens_of (c :: pending) tl
      else flush pending
             ++ (if is_space c then [] else [TSym c])
             ++ tokens_of [] tl
  end.

(** The tokens of the lines of a file, each line with its number (from
    [n]); lines without a token, blank or all comment, are dropped. *)
Fixpoint lex_lines (in_comment : bool) (n : nat) (ls : list string)
  : list (nat * list token) :=
  match ls with
  | [] => []
  | l :: rest =>
      let (cs, b) := strip_comments in_comment (list_ascii_of_string l) in
      match tokens_of [] cs with
      | [] => lex_lines b (S n) rest
      | ts => (n, ts) :: lex_lines b (S n) rest
      end
  end.

Definition lex (file : list string) : list (nat * list token) :=
  lex_lines false 1 file.

(** All tokens of a file, in order. *)
Definition all_tokens (file : list string) : list token :=
  concat (map snd (lex file)).

End Lexer.
Import Lexer.

(** ** Conditional inclusion *)

Module Cpp.

(** The directives that occur in the two headers; any other directive is
    kept as it is and refused by [step]. *)
Inductive directive : Type :=
| DIfndef (m : string)
| DDefine (m : string) (body : list token)
| DEndif
| DOther (ts : list token).

Inductive item : Type :=
| IDirective (d : directive)
| IText (ts : list token).

Definition directive_of (rest : list token) : directive :=
  match rest with
  | [TWord k] => if String.eqb k "endif" then DEndif else DOther rest
  | TWord k :: TWord m :: body =>
      if String.eqb k "ifndef"
      then match body with [] => DIfndef m | _ :: _ => DOther rest end
      else if String.eqb k "define" then DDefine m body
      else DOther rest
  | _ => DOther rest
  end.

(** A line whose first token is [#] is a directive. *)
Definition classify (ts : list token) : item :=
  match ts with
  | TSym c :: rest =>
      if Ascii.eqb c "#" then IDirective (directive_of rest) else IText ts
  | _ => IText ts
  end.

Definition items (file : list string) : list (nat * item) :=
  map (fun l => (fst l, classify (snd l))) (lex file).

Definition is_directive (it : item) : bool :=
  match it with IDirective _ => true | IText _ => false end.

(** The text lines of a file: what is left for the compiler proper when
    every conditional group is taken. *)
Definition text_lines (file : list string) : list (nat * list token) :=
  flat_map (fun l => match snd l with
                     | IText ts => [(fst l, ts)]
                     | IDirective _ => []
                     end) (items file).




Section Include.

(** Macro replacement of a text line under the macros defined at that
    point.  [PHP_FUNCTION], [PHPAPI], [TSRMLS_DC] and the other macros
    the headers use are defined outside the two files, so replacement
    is left open.  It is taken to give a line for every line: a unit in
    which a macro call is refused (a wrong number of arguments, say) is
    not described, and a statement about what an inclusion contributes
    takes the acceptance of the inclusion as a hypothesis. *)
Variable expand : gmap string (list token) -> list token -> list token.




End Include.



End Cpp.
Import Cpp.

(** ** Function declarations *)

Module Decl.

(** A type as the declarations write it: an optional [const], the name of
    the base type and the number of [*] after it. *)
Record ctype : Type := mkType
  { ty_const : bool
  ; ty_base : string
  ; ty_ptr : nat }.

Record param : Type := mkParam
  { p_type : ctype
  ; p_name : option string }.

(** A function prototype: the macros in front of the return type
    ([PHPAPI]), the return type, the name, the parameters, and the macros
    that stand after the last parameter without a comma ([TSRMLS_DC]). *)
Record prototype : Type := mkProto
  { fn_attrs : list string
  ; fn_ret : ctype
  ; fn_name : string
  ; fn_params : list param
  ; fn_ctx : list string }.

(** What a text line of the headers can be: a prototype written out, a
    prototype made by a declaring macro ([PHP_FUNCTION(pack);]), or a
    macro call that stands alone ([BEGIN_EXTERN_C()]). *)
Inductive decl : Type :=
| DProto (p : prototype)
| DMacroProto (macro arg : string)
| DMacroCall (macro : string) (args : list token).

Definition ctype_eqb (a b : ctype) : bool :=
  Bool.eqb (ty_const a) (ty_const b)
  && String.eqb (ty_base a) (ty_base b)
  && (ty_ptr a =? ty_ptr b)%nat.

Fixpoint span {A : Type} (f : A -> bool) (l : list A) : list A * list A :=
  match l with
  | [] => ([], [])
  | x :: tl =>
      if f x then let (a, b) := span f tl in (x :: a, b) else ([], l)
  end.

(** The tokens before and after the first [c]. *)
Fixpoint split_first (c : ascii) (ts : list token)
  : option (list token * list token) :=
  match ts with
  | [] => None
  | t :: tl =>
      if is_sym c t then Some ([], tl)
      else match split_first c tl with
           | Some (a, b) => Some (t :: a, b)
           | None => None
           end
  end.

(** The groups of tokens between the [c]s. *)
Fixpoint split_on (c : ascii) (ts : list token) : list (list token) :=
  match ts with
  | [] => [[]]
  | t :: tl =>
      match split_on c tl with
      | g :: gs => if is_sym c t then [] :: g :: gs else (t :: g) :: gs
      | [] => [[t]]
      end
  end.

Fixpoint words_of (ts : list token) : option (list string) :=
  match ts with
  | [] => Some []
  | TWord w :: tl =>
      match words_of tl with
      | Some ws => Some (w :: ws)
      | None => None
      end
  | TSym _ :: _ => None
  end.

Definition is_const (w : string) : bool := String.eqb w "const".

(** One parameter: [const]s, the base type, the stars, the name if there
    is one, and then whatever words follow the name, which can only be
    macros. *)
Definition parse_param (ts : list token) : option (param * list string) :=
  let (quals, r1) := span (is_kw "const") ts in
  match r1 with
  | TWord base :: r2 =>
      let (stars, r3) := span (is_sym "*") r2 in
      let ty := mkType (negb (Nat.eqb (length quals) 0)) base (length stars) in
      match words_of r3 with
      | Some [] => Some (mkParam ty None, [])
      | Some (name :: ctx) => Some (mkParam ty (Some name), ctx)
      | None => None
      end
  | _ => None
  end.

Fixpoint parse_params (groups : list (list token))
  : option (list param * list string) :=
  match groups with
  | [] => Some ([], [])
  | g :: rest =>
      match parse_param g, parse_params rest with
      | Some (p, ctx), Some (ps, ctx') => Some (p :: ps, ctx ++ ctx')
      | _, _ => None
      end
  end.

Definition void_type : ctype := mkType false "void" 0.

(** The parameter list between the parentheses; [(void)] declares that
    there is no parameter. *)
Definition parse_param_list (inner : list token)
  : option (list param * list string) :=
  match parse_params (split_on "," inner) with
  | Some ([p], ctx) =>
      match p_name p with
      | None => if ctype_eqb (p_type p) void_type
                then Some ([], ctx) else Some ([p], ctx)
      | Some _ => Some ([p], ctx)
      end
  | r => r
  end.

(** What stands before the name: words, then stars.  Of the words that
    are not [const] the last one is the base type of the return type and
    the ones before it are macros. *)
Definition parse_spec (spec : list token) : option (list string * ctype) :=
  let (ws, stars) := span is_word spec in
  if forallb (is_sym "*") stars then
    match words_of ws with
    | Some names =>
        match rev (List.filter (fun w => negb (is_const w)) names) with
        | base :: attrs =>
            Some (rev attrs,
                  mkType (existsb is_const names) base (length stars))
        | [] => None
        end
    | None => None
    end
  else None.

Definition parse_proto (head inner : list token) : option prototype :=
  match rev head with
  | TWord name :: spec =>
      match parse_spec (rev spec), parse_param_list inner with
      | Some (attrs, ret), Some (ps, ctx) =>
          Some (mkProto attrs ret name ps ctx)
      | _, _ => None
      end
  | _ => None
  end.

Definition is_semicolon (tail : list token) : bool :=
  match tail with
  | [t] => is_sym ";" t
  | _ => false
  end.

(** One text line: [head ( inner ) tail].  Parentheses inside the
    parentheses are not read. *)
Definition parse_line (ts : list token) : option decl :=
  match split_first "(" ts with
  | None => None
  | Some (head, rest) =>
      match split_first ")" rest with
      | None => None
      | Some (inner, tail) =>
          if existsb (is_sym "(") inner then None
          else
            match head with
            | [] => None
            | [TSym _] => None
            | [TWord m] =>
                match tail with
                | [] => Some (DMacroCall m inner)
                | _ :: _ =>
                    if is_semicolon tail then
                      match inner with
                      | [TWord a] => Some (DMacroProto m a)
                      | _ => None
                      end
                    else None
                end
            | _ :: _ :: _ =>
                if is_semicolon tail then
                  match parse_proto head inner with
                  | Some p => Some (DProto p)
                  | None => None
                  end
                else None
            end
      end
  end.

(** The text lines of a file, read. *)
Definition decls_of (file : list string) : list (nat * option decl) :=
  map (fun l => (fst l, parse_line (snd l))) (text_lines file).

Definition is_function_decl (d : decl) : bool :=
  match d with
  | DProto _ | DMacroProto _ _ => true
  | DMacroCall _ _ => false
  end.

(** The function declarations of a file, with their lines. *)
Definition functions (file : list string) : list (nat * decl) :=
  flat_map (fun l => match snd l with
                     | Some d => if is_function_decl d then [(fst l, d)] else []
                     | None => []
                     end) (decls_of file).

(** The prototypes that are written out. *)
Definition prototypes (file : list string) : list prototype :=
  flat_map (fun l => match snd l with
                     | DProto p => [p]
                     | _ => []
                     end) (functions file).

Definition find_proto (name : string) (file : list string) : option prototype :=
  find (fun p => String.eqb (fn_name p) name) (prototypes file).

(** How a function declaration is spelled in the spec: the name for a
    prototype, the macro call for a declaring macro. *)
Definition decl_label (d : decl) : string :=
  match d with
  | DProto p => fn_name p
  | DMacroProto m a => m +:+ "(" +:+ a +:+ ")"
  | DMacroCall m _ => m +:+ "()"
  end.

End Decl.
Import Decl.

(** The five functions of [php_open_temporary_file.h], as the header
    declares them. *)
Definition php_open_temporary_file : option prototype :=
  find_proto "php_open_temporary_file" php_open_temporary_file_h.
Definition php_open_temporary_fd_ex : option prototype :=
  find_proto "php_open_temporary_fd_ex" php_open_temporary_file_h.
Definition php_open_temporary_fd : option prototype :=
  find_proto "php_open_temporary_fd" php_open_temporary_file_h.
Definition php_get_temporary_directory : option prototype :=
  find_proto "php_get_temporary_directory" php_open_temporary_file_h.
Definition php_shutdown_temporary_directory : option prototype :=
  find_proto "php_shutdown_temporary_directory" php_open_temporary_file_h.

(** ** What the text of a header uses *)

Module Scan.

Definition words_in (ts : list token) : list string :=
  flat_map (fun t => match t with TWord w => [w] | TSym _ => [] end) ts.

Definition symbols_in (ts : list token) : list ascii :=
  flat_map (fun t => match t with TSym c => [c] | TWord _ => [] end) ts.

(** The words and the punctuation of the text lines of a file. *)
Definition text_words (file : list string) : list string :=
  flat_map (fun l => words_in (snd l)) (text_lines file).

Definition text_symbols (file : list string) : list ascii :=
  flat_map (fun l => symbols_in (snd l)) (text_lines file).

Definition uses_word (ws : list string) (file : list string) : bool :=
  existsb (fun w => existsb (String.eqb w) ws) (text_words file).

Definition uses_symbol (cs : list ascii) (file : list string) : bool :=
  existsb (fun c => existsb (Ascii.eqb c) cs) (text_symbols file).

(** The numbers of the text lines in which a word satisfies [f]. *)
Definition lines_with (f : string -> bool) (file : list string) : list nat :=
  flat_map (fun l => if existsb f (words_in (snd l)) then [fst l] else [])
           (text_lines file).

(** The macros a file defines, with their replacement lists. *)
Definition defines (file : list string) : list (string * list token) :=
  flat_map (fun l => match snd l with
                     | IDirective (DDefine m body) => [(m, body)]
                     | _ => []
                     end) (items file).

(** Keywords that start a statement with control flow. *)
Definition control_keywords : list string :=
  [ "if"; "else"; "switch"; "case"; "default"; "while"; "do"; "for"
  ; "goto"; "continue"; "break"; "return" ].

(** Keywords that define a type. *)
Definition type_keywords : list string :=
  [ "typedef"; "struct"; "union"; "enum"; "class" ].

(** Punctuation of function bodies, initialisers and arrays. *)
Definition body_symbols : list ascii :=
  [ "{"; "}"; "="; "["; "]" ]%char.

(** Words that give linkage. *)
Definition linkage_words : list string :=
  [ "extern"; "BEGIN_EXTERN_C"; "END_EXTERN_C" ].

(** The base types of C itself. *)
Definition primitive_types : list string :=
  [ "void"; "char"; "short"; "int"; "long"; "float"; "double"
  ; "signed"; "unsigned" ].

Definition is_primitive (w : string) : bool :=
  existsb (String.eqb w) primitive_types.

Fixpoint contains (sub s : string) : bool :=
  String.prefix sub s
  || match s with
     | EmptyString => false
     | String _ tl => contains sub tl
     end.

(** A word of threading: a macro of the thread-safe resource manager
    ([TSRM...]), the POSIX thread interface, or a C or C++ keyword of
    threads and shared memory. *)
Definition is_thread_word (w : string) : bool :=
  String.prefix "TSRM" w
  || String.prefix "pthread" w
  || existsb (String.eqb w)
       [ "volatile"; "_Atomic"; "_Thread_local"; "thread_local"; "__thread" ].

(** The type names the prototypes of a file use, return types first. *)
Definition type_names (file : list string) : list string :=
  flat_map (fun p => ty_base (fn_ret p)
                     :: map (fun q => ty_base (p_type q)) (fn_params p))
           (prototypes file).

Definition ctx_macros (file : list string) : list string :=
  flat_map fn_ctx (prototypes file).

(** The type names used that are not base types of C, each once. *)
Definition foreign_types (file : list string) : list string :=
  nodup string_dec (List.filter (fun w => negb (is_primitive w)) (type_names file)).

(** Every word of a file, directive lines included. *)
Definition all_words (file : list string) : list string :=
  words_in (all_tokens file).

(** The tokens between the parentheses of the line that declares
    [name]. *)
Definition param_tokens (name : string) (file : list string)
  : option (list token) :=
  match find (fun l => match parse_line (snd l) with
                       | Some (DProto p) => String.eqb (fn_name p) name
                       | _ => false
                       end) (text_lines file) with
  | Some l =>
      match split_first "(" (snd l) with
      | Some (_, rest) =>
          match split_first ")" rest with
          | Some (inner, _) => Some inner
          | None => None
          end
      | None => None
      end
  | None => None
  end.

End Scan.
Import Scan.

(** ** Linkage *)

Module Linkage.

(** Modelled from the spec: [BEGIN_EXTERN_C] and [END_EXTERN_C] are
    macros defined outside the two files.  The spec calls the declared
    signatures C-linkage signatures; the two macros are read as what gives
    that linkage, the first opening and the second closing a block of C
    linkage.  A function declaration carries a C-linkage specification
    when it stands inside such a block. *)
Fixpoint annotate (in_c : bool) (ds : list (nat * option decl))
  : list (string * bool) :=
  match ds with
  | [] => []
  | (_, Some (DMacroCall m _)) :: rest =>
      if String.eqb m "BEGIN_EXTERN_C" then annotate true rest
      else if String.eqb m "END_EXTERN_C" then annotate false rest
      else annotate in_c rest
  | (_, Some d) :: rest => (decl_label d, in_c) :: annotate in_c rest
  | (_, None) :: rest => annotate in_c rest
  end.

(** Every function declaration of a file, with whether it carries a
    C-linkage specification. *)
Definition linkage_of (file : list string) : list (string * bool) :=
  annotate false (decls_of file).

(** All function declarations of the excerpt carry a C-linkage
    specification. *)
Definition all_c_linkage : Prop :=
  forall (name : string) (file : list string) (f : string) (b : bool),
    In (name, file) excerpt -> In (f, b) (linkage_of file) -> b = true.

End Linkage.
Import Linkage.

(** ** Values and what a prototype lets a call report *)

Module Value.

(** The values that cross a call: nothing, an integer, or a pointer that
    is null ([None]) or an address. *)
Inductive cval : Type :=
| VVoid
| VInt (z : Z)
| VPtr (a : option N).

Definition int_min : Z := (-2147483648)%Z.
Definition int_max : Z := 2147483647%Z.

(** The values of a type of the headers.  [void] has the one value
    [VVoid]; [int] has the integers of 32 bits; a type with a star has
    the pointers, the null pointer among them. *)
Definition has_type (v : cval) (t : ctype) : bool :=
  match v with
  | VVoid => (ty_ptr t =? 0)%nat && String.eqb (ty_base t) "void"
  | VInt z =>
      (ty_ptr t =? 0)%nat && String.eqb (ty_base t) "int"
      && (int_min <=? z)%Z && (z <=? int_max)%Z
  | VPtr _ => negb (ty_ptr t =? 0)%nat
  end.

(** A parameter the callee can write through: a pointer to something
    that is not [const]. *)
Definition writable (t : ctype) : bool :=
  negb (ty_ptr t =? 0)%nat && negb (ty_const t).

(** The parameters written out in the prototype that the callee can
    write through.  What a macro after the last parameter stands for is
    not in the headers; such macros are in [fn_ctx]. *)
Definition out_params (p : prototype) : list param :=
  List.filter (fun q => writable (p_type q)) (fn_params p).

Definition returns_value (p : prototype) : bool :=
  negb (ctype_eqb (fn_ret p) void_type).

(** An implementation of a prototype, over any state of the process: it
    takes the state and the arguments and gives the new state and the
    returned value.  It conforms when the value it returns is always of
    the declared return type. *)
Definition conforms {W : Type} (impl : W -> list cval -> W * cval)
           (p : prototype) : Prop :=
  forall (w : W) (args : list cval), has_type (snd (impl w args)) (fn_ret p) = true.

End Value.
Import Value.

(** ** What the lines of a header are *)

Module Kind.

Inductive line_kind : Type :=
| KGuard        (* [#ifndef G], [#define G] with nothing after, [#endif] *)
| KPrototype    (* a function prototype, written out or by a macro *)
| KLinkage      (* [BEGIN_EXTERN_C()] or [END_EXTERN_C()] *)
| KOther.

Definition kind_of (ts : list token) : line_kind :=
  match classify ts with
  | IDirective (DIfndef _) => KGuard
  | IDirective (DDefine _ []) => KGuard
  | IDirective DEndif => KGuard
  | IDirective _ => KOther
  | IText ts' =>
      match parse_line ts' with
      | Some (DProto _) => KPrototype
      | Some (DMacroProto _ _) => KPrototype
      | Some (DMacroCall m []) =>
          if String.eqb m "BEGIN_EXTERN_C" || String.eqb m "END_EXTERN_C"
          then KLinkage else KOther
      | _ => KOther
      end
  end.

(** Every line of a file that has a token, with its number and kind. *)
Definition kinds (file : list string) : list (nat * line_kind) :=
  map (fun l => (fst l, kind_of (snd l))) (lex file).

(** A file is prototypes and include guards and nothing else: every line
    with a token is of one of these two kinds. *)
Definition prototypes_and_guards_only (file : list string) : Prop :=
  forall (n : nat) (k : line_kind),
    In (n, k) (kinds file) -> k = KPrototype \/ k = KGuard.

End Kind.
Import Kind.

(** ** Translation units that include the headers *)

Module Unit.












Section Sequence.

Variable expand : gmap string (list token) -> list token -> list token.




End Sequence.


End Unit.
Import Unit.

(** ** The preprocessor on a guarded header *)

Section GuardedInclude.

Variable expand : gmap string (list token) -> list token -> list token.










End GuardedInclude.

(** ** The two headers, read *)

Lemma decls_pack_h :
  decls_of pack_h
  = [ (32, Some (DMacroProto "PHP_MINIT_FUNCTION" "pack"))
    ; (33, Some (DMacroProto "PHP_FUNCTION" "pack"))
    ; (34, Some (DMacroProto "PHP_FUNCTION" "unpack")) ].
Proof. vm_compute. reflexivity. Qed.

Lemma decls_php_open_temporary_file_h :
  let cstr := mkType true "char" 1 in
  let leading := [ mkParam cstr (Some "dir"); mkParam cstr (Some "pfx")
                 ; mkParam (mkType false "char" 2) (Some "opened_path_p") ] in
  decls_of php_open_temporary_file_h
  = [ (31, Some (DMacroCall "BEGIN_EXTERN_C" []))
    ; (32, Some (DProto (mkProto ["PHPAPI"] (mkType false "FILE" 1)
                           "php_open_temporary_file" leading ["TSRMLS_DC"])))
    ; (33, Some (DProto (mkProto ["PHPAPI"] (mkType false "int" 0)
                           "php_open_temporary_fd_ex"
                           (leading ++ [mkParam (mkType false "zend_bool" 0)
                                                (Some "open_basedir_check")])
                           ["TSRMLS_DC"])))
    ; (34, Some (DProto (mkProto ["PHPAPI"] (mkType false "int" 0)
                           "php_open_temporary_fd" leading ["TSRMLS_DC"])))
    ; (35, Some (DProto (mkProto ["PHPAPI"] cstr
                           "php_get_temporary_directory" [] [])))
    ; (36, Some (DProto (mkProto ["PHPAPI"] void_type
                           "php_shutdown_temporary_directory" [] [])))
    ; (37, Some (DMacroCall "END_EXTERN_C" [])) ].
Proof. vm_compute. reflexivity. Qed.

(** ** Properties of the two headers *)

(** C1.  The excerpt declares exactly eight functions: [pack.h] declares
    [PHP_MINIT_FUNCTION(pack)], [PHP_FUNCTION(pack)] and
    [PHP_FUNCTION(unpack)] (lines 32 to 34) and [php_open_temporary_file.h]
    declares [php_open_temporary_file], [php_open_temporary_fd_ex],
    [php_open_temporary_fd], [php_get_temporary_directory] and
    [php_shutdown_temporary_directory] (lines 32 to 36).  Every text line
    of both files is read, and the only text lines that are not function
    declarations are the two linkage brackets around the five prototypes,
    so no other function is declared. *)
Theorem excerpt_declares_eight_functions :
  map (fun d => (fst d, decl_label (snd d))) (functions pack_h)
  = [ (32, "PHP_MINIT_FUNCTION(pack)"); (33, "PHP_FUNCTION(pack)")
    ; (34, "PHP_FUNCTION(unpack)") ]
  /\ map (fun d => (fst d, decl_label (snd d))) (functions php_open_temporary_file_h)
     = [ (32, "php_open_temporary_file"); (33, "php_open_temporary_fd_ex")
       ; (34, "php_open_temporary_fd"); (35, "php_get_temporary_directory")
       ; (36, "php_shutdown_temporary_directory") ]
  /\ length (flat_map (fun f => functions (snd f)) excerpt) = 8
  /\ forallb (fun f => forallb (fun l => match snd l with
                                         | Some _ => true
                                         | None => false
                                         end) (decls_of (snd f))) excerpt = true
  /\ length (text_lines pack_h) = length (functions pack_h)
  /\ List.filter (fun l => match snd l with
                      | Some d => negb (is_function_decl d)
                      | None => true
                      end) (decls_of php_open_temporary_file_h)
     = [ (31, Some (DMacroCall "BEGIN_EXTERN_C" []))
       ; (37, Some (DMacroCall "END_EXTERN_C" [])) ].
Proof. repeat apply conj; vm_compute; reflexivity. Qed.

(** C2, as the claim has it, fails: line 31 of
    [php_open_temporary_file.h], [BEGIN_EXTERN_C()], is a macro call that
    is neither a function prototype nor a line of the include guard (and
    so is line 37, [END_EXTERN_C()]). *)
Lemma extern_c_lines_are_neither :
  ~ (forall (name : string) (file : list string),
       In (name, file) excerpt -> prototypes_and_guards_only file).
Proof.
  intros H.
  destruct (H "php_open_temporary_file.h" php_open_temporary_file_h
              ltac:(vm_compute; tauto) 31 KLinkage ltac:(vm_compute; tauto))
    as [E|E]; discriminate E.
Qed.

(** C2, amended.  Both files consist of declarations only.  Every line
    with a token is a line of the include guard or a function prototype,
    but for lines 31 and 37 of [php_open_temporary_file.h], which are the
    [BEGIN_EXTERN_C()] and [END_EXTERN_C()] around its prototypes.  No line has a brace, an
    [=] or a square bracket, so there is no function body, initialiser or
    array; no line has a keyword of control flow; no line has a keyword
    that defines a structure or another type.  Nothing in the files can
    run. *)
Theorem headers_are_declarations_only :
  kinds pack_h
  = [ (29, KGuard); (30, KGuard); (32, KPrototype); (33, KPrototype)
    ; (34, KPrototype); (36, KGuard) ]
  /\ kinds php_open_temporary_file_h
     = [ (28, KGuard); (29, KGuard); (31, KLinkage); (32, KPrototype)
       ; (33, KPrototype); (34, KPrototype); (35, KPrototype)
       ; (36, KPrototype); (37, KLinkage); (39, KGuard) ]
  /\ forallb (fun f => negb (uses_symbol body_symbols (snd f))
                       && negb (uses_word control_keywords (snd f))
                       && negb (uses_word type_keywords (snd f))) excerpt = true.
Proof. repeat apply conj; vm_compute; reflexivity. Qed.

(** C4.  The only words of threading in the excerpt are three occurrences
    of [TSRMLS_DC], all in [php_open_temporary_file.h], on lines 32, 33 and
    34: the declarations of [php_open_temporary_file],
    [php_open_temporary_fd_ex] and [php_open_temporary_fd], each of which
    ends its parameter list with it.  [php_get_temporary_directory] and
    [php_shutdown_temporary_directory] have no such macro and no
    parameter. *)
Theorem tsrmls_dc_sites :
  List.filter is_thread_word (all_words pack_h) = []
  /\ List.filter is_thread_word (all_words php_open_temporary_file_h)
     = [ "TSRMLS_DC"; "TSRMLS_DC"; "TSRMLS_DC" ]
  /\ lines_with is_thread_word php_open_temporary_file_h = [32; 33; 34]
  /\ map (fun p => (fn_name p, fn_ctx p)) (prototypes php_open_temporary_file_h)
     = [ ("php_open_temporary_file", ["TSRMLS_DC"])
       ; ("php_open_temporary_fd_ex", ["TSRMLS_DC"])
       ; ("php_open_temporary_fd", ["TSRMLS_DC"])
       ; ("php_get_temporary_directory", [])
       ; ("php_shutdown_temporary_directory", []) ]
  /\ option_map fn_params php_get_temporary_directory = Some []
  /\ option_map fn_params php_shutdown_temporary_directory = Some [].
Proof. repeat apply conj; vm_compute; reflexivity. Qed.

(** C5.  The interface of the temporary directory is two declarations:
    [php_get_temporary_directory], with no parameter, returning
    [const char *], and [php_shutdown_temporary_directory], with no
    parameter, returning [void]. *)
Theorem temp_directory_interface :
  php_get_temporary_directory
  = Some (mkProto ["PHPAPI"] (mkType true "char" 1)
                  "php_get_temporary_directory" [] [])
  /\ php_shutdown_temporary_directory
     = Some (mkProto ["PHPAPI"] (mkType false "void" 0)
                     "php_shutdown_temporary_directory" [] [])
  /\ List.filter (fun p => contains "temporary_directory" (fn_name p))
            (flat_map (fun f => prototypes (snd f)) excerpt)
     = [ mkProto ["PHPAPI"] (mkType true "char" 1)
                 "php_get_temporary_directory" [] []
       ; mkProto ["PHPAPI"] (mkType false "void" 0)
                 "php_shutdown_temporary_directory" [] [] ].
Proof. repeat apply conj; vm_compute; reflexivity. Qed.

(** C6.  Neither file defines a type: no [typedef], [struct], [union],
    [enum] or [class] occurs, and the only macro each file defines is its
    include guard, with an empty replacement list.  The types of the
    declarations that are not base types of C are [FILE] and [zend_bool],
    and the only macro in a parameter list is [TSRMLS_DC]; none of the
    three is defined in either file. *)
Theorem no_local_types :
  forallb (fun f => negb (uses_word type_keywords (snd f))) excerpt = true
  /\ defines pack_h = [("PACK_H", [])]
  /\ defines php_open_temporary_file_h = [("PHP_OPEN_TEMPORARY_FILE_H", [])]
  /\ foreign_types pack_h = []
  /\ foreign_types php_open_temporary_file_h = ["FILE"; "zend_bool"]
  /\ nodup string_dec (flat_map (fun f => ctx_macros (snd f)) excerpt)
     = ["TSRMLS_DC"]
  /\ forallb (fun w => forallb (fun f => negb (existsb (String.eqb w)
                                                 (map fst (defines (snd f)))))
                               excerpt)
             ["FILE"; "zend_bool"; "TSRMLS_DC"] = true.
Proof. repeat apply conj; vm_compute; reflexivity. Qed.

(** C7, as the claim has it, fails: the three declarations of [pack.h]
    stand outside any linkage block, so not every function declaration of
    the excerpt carries a C-linkage specification. *)
Lemma pack_h_declarations_have_no_linkage_block : ~ all_c_linkage.
Proof.
  intros H.
  specialize (H "pack.h" pack_h "PHP_FUNCTION(pack)" false).
  assert (E : false = true); [|discriminate E].
  apply H; vm_compute; tauto.
Qed.

(** C7, amended.  The five declarations of [php_open_temporary_file.h] all
    carry a C-linkage specification: they stand between [BEGIN_EXTERN_C()]
    on line 31 and [END_EXTERN_C()] on line 37.  The three macro
    declarations of [pack.h] carry none, and [pack.h] has no word of
    linkage at all. *)
Theorem c_linkage_by_header :
  linkage_of php_open_temporary_file_h
  = [ ("php_open_temporary_file", true); ("php_open_temporary_fd_ex", true)
    ; ("php_open_temporary_fd", true); ("php_get_temporary_directory", true)
    ; ("php_shutdown_temporary_directory", true) ]
  /\ lines_with (fun w => String.eqb w "BEGIN_EXTERN_C") php_open_temporary_file_h
     = [31]
  /\ lines_with (fun w => String.eqb w "END_EXTERN_C") php_open_temporary_file_h
     = [37]
  /\ linkage_of pack_h
     = [ ("PHP_MINIT_FUNCTION(pack)", false); ("PHP_FUNCTION(pack)", false)
       ; ("PHP_FUNCTION(unpack)", false) ]
  /\ uses_word linkage_words pack_h = false.
Proof. repeat apply conj; vm_compute; reflexivity. Qed.

(** C8.  The three declarations that open a temporary file start with the
    same parameters, [const char *dir, const char *pfx,
    char **opened_path_p], which are all the parameters of
    [php_open_temporary_file] and of [php_open_temporary_fd].
    [php_open_temporary_fd_ex] is [php_open_temporary_fd] with another
    name and one more parameter, [zend_bool open_basedir_check], at the
    end of the list: both return [int], both have [PHPAPI] in front and
    [TSRMLS_DC] after the last parameter, and in the text the new
    parameter and its comma stand right before [TSRMLS_DC]. *)
Theorem fd_ex_extends_fd :
  exists (leading : list param) (f ex fd : prototype) (pre : list token),
    leading = [ mkParam (mkType true "char" 1) (Some "dir")
              ; mkParam (mkType true "char" 1) (Some "pfx")
              ; mkParam (mkType false "char" 2) (Some "opened_path_p") ]
    /\ php_open_temporary_file = Some f
    /\ php_open_temporary_fd_ex = Some ex
    /\ php_open_temporary_fd = Some fd
    /\ fn_params f = leading
    /\ fn_params fd = leading
    /\ firstn 3 (fn_params ex) = leading
    /\ ex = mkProto (fn_attrs fd) (fn_ret fd) "php_open_temporary_fd_ex"
                    (fn_params fd
                       ++ [mkParam (mkType false "zend_bool" 0)
                                   (Some "open_basedir_check")])
                    (fn_ctx fd)
    /\ fn_ret fd = mkType false "int" 0
    /\ fn_ctx fd = ["TSRMLS_DC"]
    /\ param_tokens "php_open_temporary_fd" php_open_temporary_file_h
       = Some (pre ++ [TWord "TSRMLS_DC"])
    /\ param_tokens "php_open_temporary_fd_ex" php_open_temporary_file_h
       = Some (pre ++ [TSym ","; TWord "zend_bool"; TWord "open_basedir_check"]
                   ++ [TWord "TSRMLS_DC"]).
Proof.
  pose (cstr := mkType true "char" 1).
  pose (leading := [ mkParam cstr (Some "dir"); mkParam cstr (Some "pfx")
                   ; mkParam (mkType false "char" 2) (Some "opened_path_p") ]).
  exists leading,
    (mkProto ["PHPAPI"] (mkType false "FILE" 1) "php_open_temporary_file"
             leading ["TSRMLS_DC"]),
    (mkProto ["PHPAPI"] (mkType false "int" 0) "php_open_temporary_fd_ex"
             (leading ++ [mkParam (mkType false "zend_bool" 0)
                                  (Some "open_basedir_check")])
             ["TSRMLS_DC"]),
    (mkProto ["PHPAPI"] (mkType false "int" 0) "php_open_temporary_fd"
             leading ["TSRMLS_DC"]),
    [ TWord "const"; TWord "char"; TSym "*"; TWord "dir"; TSym ","
    ; TWord "const"; TWord "char"; TSym "*"; TWord "pfx"; TSym ","
    ; TWord "char"; TSym "*"; TSym "*"; TWord "opened_path_p" ].
  repeat apply conj; vm_compute; reflexivity.
Qed.

(** C10.  [php_shutdown_temporary_directory] is declared with return type
    [void] and no parameter, so it has nothing to report a failure with:
    it returns no value and has no parameter to write through, and for
    any implementation that conforms to the declaration every call
    returns the same thing, the one value of [void]. *)
Theorem shutdown_reports_nothing
        (W : Type) (impl : W -> list cval -> W * cval) (p : prototype)
        (w w' : W) (args args' : list cval) :
  php_shutdown_temporary_directory = Some p ->
  conforms impl p ->
  fn_ret p = void_type
  /\ fn_params p = []
  /\ fn_ctx p = []
  /\ returns_value p = false
  /\ out_params p = []
  /\ snd (impl w args) = VVoid
  /\ snd (impl w args) = snd (impl w' args').
Proof.
  intros Hp Hc.
  assert (E : p = mkProto ["PHPAPI"] void_type
                          "php_shutdown_temporary_directory" [] []).
  { assert (H : php_shutdown_temporary_directory
                = Some (mkProto ["PHPAPI"] void_type
                                "php_shutdown_temporary_directory" [] []))
      by (vm_compute; reflexivity).
    congruence. }
  subst p.
  assert (Hv : forall x a, snd (impl x a) = VVoid).
  { intros x a. specialize (Hc x a). cbn [fn_ret] in Hc.
    destruct (snd (impl x a)); [reflexivity | discriminate Hc | discriminate Hc]. }
  repeat apply conj; try reflexivity.
  - apply Hv.
  - now rewrite !Hv.
Qed.

(** C10 at an implementation that counts its calls: the declaration is
    found, the implementation conforms, and two different calls return
    the same. *)
Lemma shutdown_reports_nothing_witness :
  php_shutdown_temporary_directory
  = Some (mkProto ["PHPAPI"] void_type "php_shutdown_temporary_directory" [] [])
  /\ conforms (fun (n : nat) (_ : list cval) => (S n, VVoid))
              (mkProto ["PHPAPI"] void_type "php_shutdown_temporary_directory" [] [])
  /\ snd ((fun (n : nat) (_ : list cval) => (S n, VVoid)) 0 [])
     = snd ((fun (n : nat) (_ : list cval) => (S n, VVoid)) 1 [VInt 1]).
Proof.
  assert (Hp : php_shutdown_temporary_directory
               = Some (mkProto ["PHPAPI"] void_type
                               "php_shutdown_temporary_directory" [] []))
    by (vm_compute; reflexivity).
  assert (Hc : conforms (fun (n : nat) (_ : list cval) => (S n, VVoid))
                        (mkProto ["PHPAPI"] void_type
                                 "php_shutdown_temporary_directory" [] []))
    by (intros n args; reflexivity).
  split; [exact Hp|]. split; [exact Hc|].
  exact (proj2 (proj2 (proj2 (proj2 (proj2 (proj2
    (shutdown_reports_nothing nat _ _ 0 1 [] [VInt 1] Hp Hc))))))).
Defined.

(** ** Units that include the headers *)


























(** ** A further inclusion in a unit *)






